(** * Metrics engine: metrics_registry.py, snowflake_service.py, metrics_service.py

    A shallow embedding of the metric computation engine.  Python dicts
    are association lists in insertion order ([dict]); the warehouse, the
    connector, the clock and Python's float formatting are the
    environment, bundled in a [World] record; the service objects
    ([SnowflakeService] and the [MetricsService] cache) are one state
    record threaded by a small state-and-exception monad [M]. *)

From Stdlib Require Import String List ZArith QArith Bool Lia.
From Stdlib Require Import Sorting.Sorted.
Import ListNotations.
Open Scope string_scope.

(** ** Python dicts: association lists kept in insertion order *)

Definition dict (V : Type) := list (string * V).

Fixpoint dict_get {V} (d : dict V) (k : string) : option V :=
  match d with
  | [] => None
  | (k', v) :: r => if String.eqb k k' then Some v else dict_get r k
  end.

(** [d[k] = v]: an existing key keeps its position, a new key goes last. *)
Fixpoint dict_set {V} (d : dict V) (k : string) (v : V) : dict V :=
  match d with
  | [] => [(k, v)]
  | (k', v') :: r => if String.eqb k k' then (k, v) :: r else (k', v') :: dict_set r k v
  end.

(** ** Exceptions, with their [str(e)] *)

Inductive exn :=
  | SnowflakeConnectionError (msg : string)
  | Exception_ (msg : string)       (* a bare [Exception(msg)] *)
  | DatabaseError (msg : string)    (* raised by the driver inside [pd.read_sql] *)
  | ValueError (msg : string).      (* [float(...)] / [int(...)] of text *)

Definition str_exn (e : exn) : string :=
  match e with
  | SnowflakeConnectionError m | Exception_ m | DatabaseError m | ValueError m => m
  end.

(** ** Tabular results (pandas DataFrames of the warehouse's rows) *)

(** A cell: SQL NULL arrives as [None]; numbers as [Q]; [CStr] stands for
    non-numeric text, on which [float]/[int] raise. *)
Inductive cell := CNull | CNum (q : Q) | CStr (s : string).

(** A row: column name to cell, in the result's column order. *)
Definition row := list (string * cell).
Definition table := list row.

(** [col in row] (exact label match) and [row[col]]. *)
Fixpoint row_get (r : row) (col : string) : option cell :=
  match r with
  | [] => None
  | (c, v) :: r' => if String.eqb col c then Some v else row_get r' col
  end.

Definition py_float (c : cell) : exn + Q :=
  match c with
  | CNum q => inr q
  | CStr s => inl (ValueError ("could not convert string to float: '" ++ s ++ "'"))
  | CNull => inl (ValueError "float() argument must be a string or a real number, not 'NoneType'")
  end.

Definition py_int (c : cell) : exn + Z :=
  match c with
  | CNum q => inr (Z.quot (Qnum q) (Zpos (Qden q)))
  | CStr s => inl (ValueError ("invalid literal for int() with base 10: '" ++ s ++ "'"))
  | CNull => inl (ValueError "int() argument must be a string, a bytes-like object or a real number, not 'NoneType'")
  end.

(** ** metrics_registry.py *)

Inductive MetricType := PERCENTAGE | RATIO | COUNT | CURRENCY | LIST | PARETO.

Definition metric_type_value (t : MetricType) : string :=
  match t with
  | PERCENTAGE => "percentage" | RATIO => "ratio" | COUNT => "count"
  | CURRENCY => "currency" | LIST => "list" | PARETO => "pareto"
  end.

(** Dates are timestamps; the query builders are opaque functions of them.
    The display metadata (color, icon, trend, ...) is pass-through and left out. *)
Definition date := Z.

Record MetricConfig := mkMetricConfig {
  key : string;
  title : string;
  description : string;
  category : string;
  metric_type : MetricType;
  summary_query_func : date -> date -> string
}.

(** [MetricsRegistry._metrics]. *)
Definition MetricsRegistry := dict MetricConfig.

Definition register_metric (reg : MetricsRegistry) (config : MetricConfig) : MetricsRegistry :=
  dict_set reg (key config) config.

Definition get_metric (reg : MetricsRegistry) (k : string) : option MetricConfig :=
  dict_get reg k.

(** [get_all_metrics] returns a copy: same items, same order. *)
Definition get_all_metrics (reg : MetricsRegistry) : dict MetricConfig := reg.

(** ** metrics_service.py: the response record *)

Record MetricResponse := mkMetricResponse {
  value : option Q;
  numerator : Z;
  denominator : Z;
  status : string;
  message : string;
  data : option (list row);
  cached : bool;
  execution_time : option Z
}.

(** [MetricResponse(value, numerator, denominator, status, message)] with the
    dataclass defaults for [data], [cached] and [execution_time]. *)
Definition MetricResponse_ v n d s m : MetricResponse :=
  mkMetricResponse v n d s m None false None.

Definition set_execution_time (r : MetricResponse) (t : option Z) : MetricResponse :=
  mkMetricResponse (value r) (numerator r) (denominator r) (status r) (message r)
    (data r) (cached r) t.

(** ** The environment *)

(** Connections are identified by the number of the [connect] call that
    produced them: each call of the connector opens a distinct session. *)
Definition handle := nat.

Record World := mkWorld {
  (** outcome of the n-th [snowflake.connector.connect] (or key loading)
      attempt: [None] succeeds, [Some m] fails with message [m] *)
  connect_outcome : nat -> option string;
  (** whether [close()] on a handle raises *)
  close_raises : handle -> bool;
  (** [pd.read_sql(query, conn)]: the driver's outcome and the seconds it takes *)
  read_sql : string -> handle -> (string + table) * Z;
  (** Python's float formatting: [f"{v:.1%}"], [f"{v:,.0f}"], [f"{v:.2f}"], [f"{n}"] *)
  fmt_pct : Q -> string;
  fmt_count : Q -> string;
  fmt_ratio : Q -> string;
  str_int : Z -> string;
  fmt_secs : Z -> string
}.

(** ** The service state *)

Inductive log_level := INFO | ERROR.

Record Svc := mkSvc {
  (** [SnowflakeService.conn], [.last_connection_time], [.connection_timeout] *)
  conn : option handle;
  last_connection_time : option Z;
  connection_timeout : Z;
  (** connector calls made so far, and handles [close()] was called on
      (most recent first) *)
  attempts : nat;
  closed : list handle;
  (** the value [time.time()] returns *)
  now : Z;
  (** [MetricsService._cache], a [TTLCache(maxsize=100, ttl=300)] *)
  _cache : list ((string * date * date) * MetricResponse);
  (** records of snowflake_service.py's [logger] (most recent first) *)
  logs : list (log_level * string)
}.

Definition set_conn (st : Svc) (c : option handle) (t : option Z) : Svc :=
  mkSvc c t (connection_timeout st) (attempts st) (closed st) (now st) (_cache st) (logs st).
Definition set_attempts (st : Svc) (n : nat) : Svc :=
  mkSvc (conn st) (last_connection_time st) (connection_timeout st) n (closed st) (now st) (_cache st) (logs st).
Definition add_closed (st : Svc) (h : handle) : Svc :=
  mkSvc (conn st) (last_connection_time st) (connection_timeout st) (attempts st) (h :: closed st) (now st) (_cache st) (logs st).
Definition advance (st : Svc) (d : Z) : Svc :=
  mkSvc (conn st) (last_connection_time st) (connection_timeout st) (attempts st) (closed st) (now st + d) (_cache st) (logs st).
Definition add_log (st : Svc) (l : log_level * string) : Svc :=
  mkSvc (conn st) (last_connection_time st) (connection_timeout st) (attempts st) (closed st) (now st) (_cache st) (l :: logs st).

(** [MetricsService()] (and the [SnowflakeService()] it builds) at clock [t]. *)
Definition init_svc (t : Z) : Svc := mkSvc None None 300 0 [] t [] [].

(** ** A state-and-exception monad: a raised exception keeps the state
    reached so far, as in Python. *)

Definition M (A : Type) := Svc -> (exn + A) * Svc.

Definition ret {A} (a : A) : M A := fun st => (inr a, st).
Definition raise {A} (e : exn) : M A := fun st => (inl e, st).
Definition bind {A B} (m : M A) (k : A -> M B) : M B :=
  fun st => match m st with
            | (inl e, st') => (inl e, st')
            | (inr a, st') => k a st'
            end.
(** [try: m except Exception as e: h(e)] *)
Definition try_ {A} (m : M A) (h : exn -> M A) : M A :=
  fun st => match m st with
            | (inl e, st') => h e st'
            | (inr a, st') => (inr a, st')
            end.
Definition lift {A} (r : exn + A) : M A := fun st => (r, st).
Definition get : M Svc := fun st => (inr st, st).
Definition modify (f : Svc -> Svc) : M unit := fun st => (inr tt, f st).
Definition time_time : M Z := fun st => (inr (now st), st).
Definition log (lvl : log_level) (msg : string) : M unit := fun st => (inr tt, add_log st (lvl, msg)).

Notation "x <- m ;; k" := (bind m (fun x => k)) (at level 61, m at next level, right associativity).
Notation "m ;;; k" := (bind m (fun _ => k)) (at level 61, right associativity).

Section Service.

Variable w : World.

(** ** snowflake_service.py *)

(** [_create_connection]: any failure (missing key file, bad key, network)
    is re-raised as [SnowflakeConnectionError]. *)
Definition _create_connection : M handle :=
  fun st =>
    let n := attempts st in
    let st' := set_attempts st (S n) in
    match connect_outcome w n with
    | None => (inr n, st')
    | Some m =>
        (inl (SnowflakeConnectionError ("Failed to connect to Snowflake: " ++ m)),
         add_log st' (ERROR, "Snowflake connection error: " ++ m))
    end.

(** [self.conn.close()]: the call is recorded whether or not it raises. *)
Definition conn_close (h : handle) : M unit :=
  fun st => if close_raises w h
            then (inl (Exception_ "close failed"), add_closed st h)
            else (inr tt, add_closed st h).

(** The staleness test of [get_connection]. *)
Definition is_stale (st : Svc) (current_time : Z) : bool :=
  match conn st, last_connection_time st with
  | Some _, Some t => Z.gtb (current_time - t) (connection_timeout st)
  | _, _ => true
  end.

Definition get_connection : M handle :=
  current_time <- time_time ;;
  st <- get ;;
  match is_stale st current_time, conn st with
  | false, Some h => ret h
  | _, _ =>
      match conn st with
      | Some h => try_ (conn_close h) (fun _ => ret tt)
      | None => ret tt
      end ;;;
      h <- _create_connection ;;
      modify (fun st => set_conn st (Some h) (Some current_time)) ;;;
      log INFO "Created new Snowflake connection" ;;;
      ret h
  end.

(** [pd.read_sql]: the driver's error, or the rows; the clock advances by
    the query's duration. *)
Definition pd_read_sql (query : string) (h : handle) : M table :=
  fun st => let (out, d) := read_sql w query h in
            match out with
            | inl m => (inl (DatabaseError m), advance st d)
            | inr df => (inr df, advance st d)
            end.

Definition execute_query (query : string) : M table :=
  c <- get_connection ;;
  start_time <- time_time ;;
  try_ (log INFO ("Executing query: " ++ substring 0 100 query ++ "...") ;;;
        df <- pd_read_sql query c ;;
        execution_time <- time_time ;;
        log INFO ("Query executed successfully in " ++ fmt_secs w (execution_time - start_time)
                  ++ "s, returned " ++ str_int w (Z.of_nat (length df)) ++ " rows") ;;;
        ret df)
       (fun e => execution_time <- time_time ;;
                 log ERROR ("Query execution failed after " ++ fmt_secs w (execution_time - start_time)
                            ++ "s: " ++ str_exn e) ;;;
                 raise (Exception_ ("Query execution failed: " ++ str_exn e))).

(** [clean_dataframe_for_json]: cells of this model are already JSON-safe
    (no NaN or timestamps), so records are the rows themselves. *)
Definition clean_dataframe_for_json (df : table) : list row :=
  match df with [] => [] | _ => df end.

End Service.

(** ** metrics_service.py *)

(** The candidate-column loop shared by [_extract_value],
    [_extract_numerator] and [_extract_denominator]:
    [for col in columns: if col in row and row[col] is not None: return conv(row[col])]. *)
Fixpoint scan_columns {A} (conv : cell -> exn + A) (r : row) (columns : list string)
  : exn + option A :=
  match columns with
  | [] => inr None
  | col :: rest =>
      match row_get r col with
      | Some CNull | None => scan_columns conv r rest
      | Some c => match conv c with inl e => inl e | inr a => inr (Some a) end
      end
  end.

(** [value_columns.get(metric_type, ['value', 'total', 'count'])]. *)
Definition value_columns_get (metric_type : string) : list string :=
  if String.eqb metric_type "percentage" then ["rate"; "percentage"; "ratio"; "dormant_rate"; "activation_rate"]
  else if String.eqb metric_type "ratio" then ["ratio"; "cac_to_ltv_ratio"; "value"]
  else if String.eqb metric_type "count" then ["total"; "count"; "total_leads"; "total_users"]
  else if String.eqb metric_type "currency" then ["amount"; "revenue"; "spend"; "value"]
  else if String.eqb metric_type "list" then ["event_count"; "count"]
  else if String.eqb metric_type "pareto" then ["count"]
  else ["value"; "total"; "count"].

Definition _extract_value (r : row) (metric_type : string) : exn + option Q :=
  scan_columns py_float r (value_columns_get metric_type).

Definition _extract_numerator (r : row) : exn + Z :=
  match scan_columns py_int r ["numerator"; "dormant_users"; "conversions"; "total_leads"] with
  | inl e => inl e
  | inr (Some n) => inr n
  | inr None => inr 0%Z
  end.

Definition _extract_denominator (r : row) : exn + Z :=
  match scan_columns py_int r ["denominator"; "total_users"; "total_cancels"] with
  | inl e => inl e
  | inr (Some n) => inr n
  | inr None => inr 0%Z
  end.

Section Metrics.

Variable w : World.

Definition _generate_message (config : MetricConfig) (v : option Q) (n d : Z) : string :=
  match v with
  | None => "No data available for " ++ title config
  | Some v =>
      if String.eqb (metric_type_value (metric_type config)) "percentage" then
        if Z.gtb d 0
        then str_int w n ++ " out of " ++ str_int w d ++ " users (" ++ fmt_pct w v ++ ")"
        else fmt_pct w v ++ " rate"
      else if String.eqb (metric_type_value (metric_type config)) "count" then
        fmt_count w v ++ " total"
      else if String.eqb (metric_type_value (metric_type config)) "ratio" then
        fmt_ratio w v ++ " ratio"
      else description config
  end.

Definition _process_metric_results (df : table) (config : MetricConfig)
    (start_dt end_dt : date) : M MetricResponse :=
  match df with
  | [] =>
      ret (mkMetricResponse None 0 0 "ok" ("No data available for " ++ title config)
             (Some []) false None)
  | r :: _ =>
      v <- lift (_extract_value r (metric_type_value (metric_type config))) ;;
      n <- lift (_extract_numerator r) ;;
      d <- lift (_extract_denominator r) ;;
      let msg := _generate_message config v n d in
      let dat :=
        if (existsb (String.eqb (metric_type_value (metric_type config))) ["list"; "pareto"]
            && Nat.ltb 1 (length df))%bool
        then Some (clean_dataframe_for_json df) else None in
      ret (mkMetricResponse v n d "ok" msg dat false None)
  end.

Definition calculate_metric (registry : MetricsRegistry) (metric_key : string)
    (start_dt end_dt : date) : M MetricResponse :=
  match get_metric registry metric_key with
  | None =>
      ret (MetricResponse_ None 0 0 "error" ("Unknown metric: " ++ metric_key))
  | Some metric_config =>
      start_time <- time_time ;;
      try_ (let query := summary_query_func metric_config start_dt end_dt in
            df <- execute_query w query ;;
            response <- _process_metric_results df metric_config start_dt end_dt ;;
            t <- time_time ;;
            ret (set_execution_time response (Some (t - start_time)%Z)))
           (fun e =>
              t <- time_time ;;
              ret (mkMetricResponse None 0 0 "error"
                     ("Error calculating " ++ metric_key ++ ": " ++ str_exn e)
                     None false (Some (t - start_time)%Z)))
  end.

(** The loop of [calculate_all_metrics] over the registry's items. *)
Fixpoint calculate_all_loop (registry : MetricsRegistry) (items : dict MetricConfig)
    (start_dt end_dt : date) (metrics : dict MetricResponse) : M (dict MetricResponse) :=
  match items with
  | [] => ret metrics
  | (k, config) :: rest =>
      r <- try_ (calculate_metric registry k start_dt end_dt)
                (fun e => ret (MetricResponse_ None 0 0 "error"
                                 ("Failed to calculate " ++ k ++ ": " ++ str_exn e))) ;;
      calculate_all_loop registry rest start_dt end_dt (dict_set metrics k r)
  end.

Definition calculate_all_metrics (registry : MetricsRegistry) (start_dt end_dt : date)
  : M (dict MetricResponse) :=
  calculate_all_loop registry (get_all_metrics registry) start_dt end_dt [].

End Metrics.

(** The run [calculate_all_metrics] is claimed to make: the registry's keys
    in order, each given its own [calculate_metric] result (computed in the
    state the previous key left), where a failing summary query of a key
    yields that key's error response. *)
Inductive each_key_result (w : World) (reg : MetricsRegistry) (s e : date)
  : dict MetricConfig -> Svc -> dict MetricResponse -> Svc -> Prop :=
| each_key_nil st : each_key_result w reg s e [] st [] st
| each_key_cons k cfg rest st r st1 ms st2 :
    calculate_metric w reg k s e st = (inr r, st1) ->
    (forall ex stq, execute_query w (summary_query_func cfg s e) st = (inl ex, stq) ->
       r = mkMetricResponse None 0 0 "error" ("Error calculating " ++ k ++ ": " ++ str_exn ex)
             None false (Some (now stq - now st)%Z)) ->
    each_key_result w reg s e rest st1 ms st2 ->
    each_key_result w reg s e ((k, cfg) :: rest) st ((k, r) :: ms) st2.

(** ** The registry object: [_metrics] and [_categories] *)

Record MetricsRegistryObj := mkRegistry {
  _metrics : MetricsRegistry;
  (** [self._categories], a Python set: a list without duplicates *)
  _categories : list string
}.

(** [MetricsRegistry()] *)
Definition empty_registry : MetricsRegistryObj := mkRegistry [] [].

(** [set.add] *)
Definition set_add (c : string) (s : list string) : list string :=
  if existsb (String.eqb c) s then s else s ++ [c].

(** [MetricsRegistry.register_metric]: the dict assignment, then
    [self._categories.add(config.category)]. *)
Definition registry_register (r : MetricsRegistryObj) (config : MetricConfig) : MetricsRegistryObj :=
  mkRegistry (register_metric (_metrics r) config) (set_add (category config) (_categories r)).

(** [sorted(...)] on strings (code-point order; distinct elements here). *)
Fixpoint insert_sorted (c : string) (l : list string) : list string :=
  match l with
  | [] => [c]
  | x :: l' => if String.leb c x then c :: x :: l' else x :: insert_sorted c l'
  end.

Definition sorted_strings (l : list string) : list string := fold_right insert_sorted [] l.

Definition str_le (a b : string) : Prop := String.leb a b = true.

(** [get_categories]: [sorted(list(self._categories))] *)
Definition get_categories (r : MetricsRegistryObj) : list string := sorted_strings (_categories r).

(** [get_metrics_by_category]: [{k: v for k, v in self._metrics.items() if v.category == category}] *)
Definition get_metrics_by_category (r : MetricsRegistryObj) (c : string) : dict MetricConfig :=
  filter (fun kv => String.eqb (category (snd kv)) c) (_metrics r).

(** ** [MetricsService.get_metric_details] *)

(** A details builder: [details_query_func(start_dt, end_dt, **params)];
    it may raise (e.g. on an unexpected keyword). *)
Definition details_builder := date -> date -> dict string -> exn + string.

Section Details.

Variable w : World.
(** [config.details_query_func]: the [MetricConfig] record above leaves the
    optional field out, so it is read through this projection. *)
Variable details_query_func : MetricConfig -> option details_builder.

Definition get_metric_details (registry : MetricsRegistry) (metric_key : string)
    (start_dt end_dt : date) (params : dict string) : M (list row) :=
  match get_metric registry metric_key with
  | None => ret []
  | Some metric_config =>
      match details_query_func metric_config with
      | None => ret []
      | Some f =>
          try_ (query <- lift (f start_dt end_dt params) ;;
                df <- execute_query w query ;;
                ret (clean_dataframe_for_json df))
               (* [logger.error] here is metrics_service.py's logger, which
                  [logs] does not record *)
               (fun _ => ret [])
      end
  end.

End Details.

(** ** The registry built by [register_all_metrics]

    The SQL text of each metric is opaque here: each summary builder is a
    function of the two dates that tags the text with its query module. *)

Definition sql_of (name : string) : date -> date -> string :=
  fun _ _ => "-- " ++ name ++ ".summary_sql".

Definition dormant_account_rate_config : MetricConfig :=
  mkMetricConfig "dormant_account_rate" "Dormant Account Rate"
    "Percentage of new purchasers with zero sessions after first purchase"
    "Customer Success" PERCENTAGE (sql_of "dormant_account_rate").

Definition register_all_metrics : MetricsRegistry :=
  fold_left register_metric
    [ dormant_account_rate_config;
      mkMetricConfig "t24h_activation_rate" "24h Activation Rate"
        "Percentage of new users who performed a key action within 24 hours"
        "Customer Success" PERCENTAGE (sql_of "t24h_activation_rate");
      mkMetricConfig "involuntary_churn_rate" "Involuntary Churn Rate"
        "Percentage of subscriptions canceled due to failed payments"
        "Finance" PERCENTAGE (sql_of "involuntary_churn_rate");
      mkMetricConfig "dunning_recovery_rate" "Dunning Recovery Rate"
        "Percentage of failed payments that were successfully recovered"
        "Finance" PERCENTAGE (sql_of "dunning_recovery_rate");
      mkMetricConfig "facebook_cac_to_ltv_ratio" "Facebook CAC to LTV Ratio"
        "Customer Acquisition Cost to Lifetime Value ratio for Facebook ads"
        "Marketing" RATIO (sql_of "facebook_metrics.cac_to_ltv");
      mkMetricConfig "facebook_lead_ads_total" "Facebook Lead Ads Total"
        "Total count of Facebook lead ads in the selected date range"
        "Marketing" COUNT (sql_of "facebook_metrics.lead_ads");
      mkMetricConfig "platform_breakdown" "Platform Breakdown"
        "Top platforms by event count" "Product & IT" LIST (sql_of "platform_breakdown");
      mkMetricConfig "root_cause_pareto" "Root Cause Pareto"
        "Top payment failure reasons" "Finance" PARETO (sql_of "root_cause_pareto") ]
    [].

(** ** Sample environments *)

(** A warehouse that connects, closes cleanly and answers every query with
    [out] after 2 seconds. *)
Definition world_of (connect : nat -> option string) (out : string + table) : World :=
  mkWorld connect (fun _ => false) (fun _ _ => (out, 2%Z))
    (fun _ => "<pct>") (fun _ => "<count>") (fun _ => "<ratio>") (fun _ => "<int>")
    (fun _ => "<secs>").

(** The row Snowflake returns for the dormant-account summary query: the
    unquoted aliases [total_users], [dormant_users], [dormant_rate] come
    back upper-cased. *)
Definition dormant_row_upper : row :=
  [("TOTAL_USERS", CNum (4 # 1)); ("DORMANT_USERS", CNum (1 # 1)); ("DORMANT_RATE", CNum (1 # 4))].

Definition dormant_row_lower : row :=
  [("total_users", CNum (4 # 1)); ("dormant_users", CNum (1 # 1)); ("dormant_rate", CNum (1 # 4))].

Definition w_ok_lower : World := world_of (fun _ => None) (inr [dormant_row_lower]).
Definition w_ok_upper : World := world_of (fun _ => None) (inr [dormant_row_upper]).
Definition w_empty : World := world_of (fun _ => None) (inr []).
Definition w_query_fails : World := world_of (fun _ => None) (inl "SQL compilation error").
Definition w_no_key : World :=
  world_of (fun _ => Some "Private key file not found: snowflake_private_key.pem") (inr []).

(** A session opened at time 0 by the first connector call, the clock now
    at 400 s: past the 300 s timeout. *)
Definition stale_svc : Svc := mkSvc (Some 0%nat) (Some 0%Z) 300 1 [] 400 [] [].

Example registry_keys :
  map fst register_all_metrics =
  ["dormant_account_rate"; "t24h_activation_rate"; "involuntary_churn_rate";
   "dunning_recovery_rate"; "facebook_cac_to_ltv_ratio"; "facebook_lead_ads_total";
   "platform_breakdown"; "root_cause_pareto"].
Proof. reflexivity. Qed.

Example dormant_lower_value :
  fst (calculate_metric w_ok_lower register_all_metrics "dormant_account_rate" 0%Z 1%Z (init_svc 0%Z))
  = inr (mkMetricResponse (Some (1 # 4)) 1 4 "ok" "<int> out of <int> users (<pct>)"
           None false (Some 2%Z)).
Proof. reflexivity. Qed.

(** ** Basic facts about the embedding *)

Ltac unfold_M :=
  unfold bind, ret, raise, try_, lift, get, modify, time_time, log in *.

Lemma get_connection_frame (w : World) (st st' : Svc) (o : exn + handle) :
  get_connection w st = (o, st') ->
  _cache st' = _cache st /\ now st' = now st /\ connection_timeout st' = connection_timeout st.
Proof.
  unfold get_connection, _create_connection, conn_close; unfold_M.
  destruct (is_stale st (now st)), (conn st) as [h|];
    try destruct (close_raises w h); simpl;
    try destruct (connect_outcome w (attempts st)); intros E; inversion E; subst; simpl; auto.
Qed.

Lemma execute_query_cache (w : World) (q : string) (st st' : Svc) (o : exn + table) :
  execute_query w q st = (o, st') -> _cache st' = _cache st.
Proof.
  unfold execute_query, pd_read_sql; unfold_M.
  destruct (get_connection w st) as [o1 st1] eqn:G; destruct o1 as [e|h]; intros E.
  - inversion E; subst. eapply get_connection_frame; exact G.
  - destruct (read_sql w q h) as [[m|df] d]; simpl in E; inversion E; subst; simpl;
      eapply get_connection_frame; exact G.
Qed.

Lemma process_metric_results_ok (w : World) df cfg s e (st st' : Svc) o :
  _process_metric_results w df cfg s e st = (o, st') ->
  st' = st /\ (forall r, o = inr r -> status r = "ok" /\ cached r = false).
Proof.
  unfold _process_metric_results; unfold_M.
  destruct df as [|r0 rest]; intros E.
  - inversion E; subst; split; [reflexivity|]; intros r Hr; inversion Hr; subst; auto.
  - destruct (_extract_value r0 _) as [ex|v]; [inversion E; subst; split; [reflexivity|discriminate]|].
    destruct (_extract_numerator r0) as [ex|n]; [inversion E; subst; split; [reflexivity|discriminate]|].
    destruct (_extract_denominator r0) as [ex|d]; [inversion E; subst; split; [reflexivity|discriminate]|].
    inversion E; subst; split; [reflexivity|]; intros r Hr; inversion Hr; subst; auto.
Qed.

(** [calculate_metric] never raises; its status is ["ok"] or ["error"],
    its response is never marked cached and the cache is never touched. *)
Lemma calculate_metric_shape (w : World) reg k s e (st : Svc) :
  exists r st', calculate_metric w reg k s e st = (inr r, st') /\
    (status r = "ok" \/ status r = "error") /\ cached r = false /\ _cache st' = _cache st.
Proof.
  unfold calculate_metric; unfold_M.
  destruct (get_metric reg k) as [cfg|].
  2: { eexists _, _; split; [reflexivity|]; simpl; auto. }
  destruct (execute_query w (summary_query_func cfg s e) st) as [[ex|df] st1] eqn:Q.
  - eexists _, _; split; [reflexivity|]; simpl; split; [auto|]; split; [reflexivity|].
    apply (execute_query_cache w _ st st1 _ Q).
  - destruct (_process_metric_results w df cfg s e st1) as [[ex|r] st2] eqn:P;
      destruct (process_metric_results_ok w df cfg s e st1 st2 _ P) as [-> Hr].
    + eexists _, _; split; [reflexivity|]; simpl; split; [auto|]; split; [reflexivity|].
      apply (execute_query_cache w _ st st1 _ Q).
    + destruct (Hr r eq_refl) as [Hs Hc].
      eexists _, _; split; [reflexivity|]; simpl; split; [auto|]; split; [exact Hc|].
      apply (execute_query_cache w _ st st1 _ Q).
Qed.

Definition status_ok_or_error (p : string * MetricResponse) : Prop :=
  status (snd p) = "ok" \/ status (snd p) = "error".

Lemma dict_set_Forall {V} (P : string * V -> Prop) (d : dict V) k v :
  Forall P d -> P (k, v) -> Forall P (dict_set d k v).
Proof.
  induction d as [|[k' v'] d IH]; simpl; intros Hd Hk.
  - constructor; auto.
  - inversion Hd; subst. destruct (String.eqb k k'); constructor; auto.
Qed.

Lemma dict_set_keys_fresh {V} (d : dict V) k v :
  ~ In k (map fst d) -> map fst (dict_set d k v) = (map fst d ++ [k])%list.
Proof.
  induction d as [|[k' v'] d IH]; simpl; intros Hn; [reflexivity|].
  destruct (String.eqb k k') eqn:E.
  - apply String.eqb_eq in E; subst; exfalso; auto.
  - simpl; f_equal; auto.
Qed.

Lemma calculate_all_loop_total (w : World) reg items s e acc (st : Svc) :
  Forall status_ok_or_error acc ->
  exists ms st', calculate_all_loop w reg items s e acc st = (inr ms, st') /\
    Forall status_ok_or_error ms.
Proof.
  revert acc st; induction items as [|[k cfg] rest IH]; intros acc st Hacc; simpl; unfold_M.
  - eexists _, _; split; [reflexivity|exact Hacc].
  - destruct (calculate_metric_shape w reg k s e st) as (r & st1 & E & Hs & _).
    rewrite E. apply IH. apply dict_set_Forall; auto.
Qed.

Lemma calculate_all_loop_keys (w : World) reg items s e acc (st : Svc) :
  NoDup (map fst acc ++ map fst items)%list ->
  exists ms st', calculate_all_loop w reg items s e acc st = (inr ms, st') /\
    map fst ms = (map fst acc ++ map fst items)%list.
Proof.
  revert acc st; induction items as [|[k cfg] rest IH]; intros acc st Hnd; simpl; unfold_M.
  - eexists _, _; split; [reflexivity|]. rewrite app_nil_r; reflexivity.
  - destruct (calculate_metric_shape w reg k s e st) as (r & st1 & E & _).
    rewrite E. simpl in Hnd.
    assert (Hk : ~ In k (map fst acc)).
    { intros Hin. apply NoDup_remove_2 in Hnd. apply Hnd. apply in_or_app; left; exact Hin. }
    destruct (IH (dict_set acc k r) st1) as (ms & st2 & E2 & Hks).
    + rewrite dict_set_keys_fresh by exact Hk. rewrite <- app_assoc. exact Hnd.
    + exists ms, st2; split; [exact E2|].
      rewrite Hks, dict_set_keys_fresh by exact Hk. rewrite <- app_assoc; reflexivity.
Qed.

Lemma register_metric_NoDup (reg : MetricsRegistry) cfg :
  NoDup (map fst reg) -> NoDup (map fst (register_metric reg cfg)).
Proof.
  unfold register_metric. generalize (key cfg) as k.
  induction reg as [|[k' v'] reg IH]; simpl; intros k Hnd.
  - constructor; [intros []|constructor].
  - inversion Hnd as [|? ? Hn Hnd']; subst.
    destruct (String.eqb k k') eqn:E.
    + apply String.eqb_eq in E; subst; simpl; constructor; auto.
    + simpl; constructor; [|apply IH; exact Hnd'].
      intros Hin. apply Hn.
      assert (Hsub : forall d : dict MetricConfig, forall x,
                In x (map fst (dict_set d k cfg)) -> x = k \/ In x (map fst d)).
      { clear. induction d as [|[a b] d IHd]; simpl; intros x Hx.
        - destruct Hx as [Hx|[]]; auto.
        - destruct (String.eqb k a); simpl in Hx |- *;
            [destruct Hx as [Hx|Hx]; auto|].
          destruct Hx as [Hx|Hx]; auto. destruct (IHd x Hx); auto. }
      destruct (Hsub reg k' Hin) as [Hx|Hx]; [|exact Hx].
      subst; rewrite String.eqb_refl in E; discriminate.
Qed.

(** ** Failures of [get_connection] and [execute_query] *)

Lemma get_connection_fails (w : World) (st st1 : Svc) (ex : exn) :
  get_connection w st = (inl ex, st1) ->
  is_stale st (now st) = true /\
  (exists m, connect_outcome w (attempts st) = Some m /\
             ex = SnowflakeConnectionError ("Failed to connect to Snowflake: " ++ m)) /\
  conn st1 = conn st /\ last_connection_time st1 = last_connection_time st /\
  attempts st1 = S (attempts st) /\ now st1 = now st /\
  connection_timeout st1 = connection_timeout st /\
  closed st1 = match conn st with Some h => h :: closed st | None => closed st end.
Proof.
  unfold get_connection, _create_connection, conn_close; unfold_M.
  destruct (is_stale st (now st)) eqn:S, (conn st) as [h|] eqn:C;
    try (unfold is_stale in S; rewrite C in S; discriminate);
    try destruct (close_raises w h); simpl;
    destruct (connect_outcome w (attempts st)) as [m|] eqn:O; intros E; inversion E; subst;
    simpl; repeat split; eauto; try (rewrite C; reflexivity).
Qed.

Lemma execute_query_connection_fails (w : World) q (st st1 : Svc) ex :
  get_connection w st = (inl ex, st1) -> execute_query w q st = (inl ex, st1).
Proof. intros G; unfold execute_query; unfold_M; rewrite G; reflexivity. Qed.

Lemma calculate_metric_query_raises (w : World) reg key cfg s e (st st1 : Svc) ex :
  get_metric reg key = Some cfg ->
  execute_query w (summary_query_func cfg s e) st = (inl ex, st1) ->
  calculate_metric w reg key s e st =
    (inr (mkMetricResponse None 0 0 "error" ("Error calculating " ++ key ++ ": " ++ str_exn ex)
            None false (Some (now st1 - now st)%Z)), st1).
Proof.
  intros Hk Q. unfold calculate_metric; unfold_M. rewrite Hk. simpl. rewrite Q. reflexivity.
Qed.

Lemma calculate_metric_query_returns (w : World) reg key cfg s e (st st1 : Svc) df :
  get_metric reg key = Some cfg ->
  execute_query w (summary_query_func cfg s e) st = (inr df, st1) ->
  calculate_metric w reg key s e st =
    match _process_metric_results w df cfg s e st1 with
    | (inr r, st2) => (inr (set_execution_time r (Some (now st2 - now st)%Z)), st2)
    | (inl ex, st2) =>
        (inr (mkMetricResponse None 0 0 "error" ("Error calculating " ++ key ++ ": " ++ str_exn ex)
                None false (Some (now st2 - now st)%Z)), st2)
    end.
Proof.
  intros Hk Q. unfold calculate_metric; unfold_M. rewrite Hk. simpl. rewrite Q.
  destruct (_process_metric_results w df cfg s e st1) as [[ex|r] st2]; reflexivity.
Qed.

Lemma dict_set_fresh {V} (d : dict V) k v :
  ~ In k (map fst d) -> dict_set d k v = (d ++ [(k, v)])%list.
Proof.
  induction d as [|[k' v'] d IH]; simpl; intros Hn; [reflexivity|].
  destruct (String.eqb k k') eqn:E.
  - apply String.eqb_eq in E; subst; exfalso; auto.
  - f_equal; auto.
Qed.

Lemma dict_get_NoDup {V} (d : dict V) k v :
  NoDup (map fst d) -> In (k, v) d -> dict_get d k = Some v.
Proof.
  induction d as [|[k' v'] d IH]; simpl; intros Hnd H; [destruct H|].
  inversion Hnd as [|? ? Hn Hnd']; subst.
  destruct H as [H|H].
  - inversion H; subst. rewrite String.eqb_refl. reflexivity.
  - destruct (String.eqb k k') eqn:E; [|auto].
    apply String.eqb_eq in E; subst. exfalso; apply Hn.
    change k' with (fst (k', v)). apply in_map; exact H.
Qed.

Lemma each_key_result_keys (w : World) reg s e items (st : Svc) ms st' :
  each_key_result w reg s e items st ms st' -> map fst ms = map fst items.
Proof. induction 1; simpl; [reflexivity|f_equal; assumption]. Qed.

Lemma calculate_all_loop_each (w : World) reg items s e acc (st : Svc) :
  NoDup (map fst acc ++ map fst items)%list ->
  (forall k cfg, In (k, cfg) items -> get_metric reg k = Some cfg) ->
  exists ms st', calculate_all_loop w reg items s e acc st = (inr (acc ++ ms)%list, st') /\
    each_key_result w reg s e items st ms st'.
Proof.
  revert acc st; induction items as [|[k cfg] rest IH]; intros acc st Hnd Hg; simpl; unfold_M.
  - exists [], st. rewrite app_nil_r. split; [reflexivity|constructor].
  - destruct (calculate_metric_shape w reg k s e st) as (r & st1 & E & _).
    rewrite E. simpl in Hnd.
    assert (Hk : ~ In k (map fst acc)).
    { intros Hin. apply NoDup_remove_2 in Hnd. apply Hnd. apply in_or_app; left; exact Hin. }
    destruct (IH (dict_set acc k r) st1) as (ms & st2 & E2 & Hms).
    + rewrite dict_set_keys_fresh by exact Hk. rewrite <- app_assoc. exact Hnd.
    + intros k' cfg' H'. exact (Hg k' cfg' (or_intror H')).
    + exists ((k, r) :: ms), st2. split.
      * rewrite E2, dict_set_fresh by exact Hk. rewrite <- app_assoc. reflexivity.
      * apply each_key_cons with st1; [exact E| |exact Hms].
        intros ex stq Q.
        rewrite (calculate_metric_query_raises w reg k cfg s e st stq ex
                   (Hg k cfg (or_introl eq_refl)) Q) in E.
        injection E as Er _. symmetry; exact Er.
Qed.

(** ** C1: the response cache *)

(** C1 (code_bug).  The [TTLCache] built in [MetricsService.__init__] is
    never read nor written by [calculate_metric]: a second call with the same
    key and dates, however soon after the first, is not served from the cache
    (its [cached] flag is [false]) and the cache stays as it was. *)
Theorem calculate_metric_second_call_not_cached (w : World) reg k s e (st : Svc) :
  match calculate_metric w reg k s e st with
  | (inr _, st1) =>
      match calculate_metric w reg k s e st1 with
      | (inr r2, st2) => cached r2 = false /\ _cache st2 = _cache st
      | (inl _, _) => False
      end
  | (inl _, _) => False
  end.
Proof.
  destruct (calculate_metric_shape w reg k s e st) as (r1 & st1 & E1 & _ & _ & C1).
  rewrite E1.
  destruct (calculate_metric_shape w reg k s e st1) as (r2 & st2 & E2 & _ & Hc & C2).
  rewrite E2. split; [exact Hc|]. rewrite C2; exact C1.
Qed.

(** ** C5: computing all metrics *)

(** C5 (confirmed).  For a registry (a dict: distinct keys),
    [calculate_all_metrics] always returns (never raises) a dict with exactly
    one entry per registered key, in the registry's order, whatever the
    warehouse does.  The entries are the keys' own [calculate_metric]
    results, one after the other: a key whose summary query fails gets that
    key's error response, and the keys after it are still computed. *)
Theorem calculate_all_metrics_one_entry_per_key (w : World) (reg : MetricsRegistry) s e (st : Svc)
    (Hreg : NoDup (map fst reg)) :
  exists metrics st', calculate_all_metrics w reg s e st = (inr metrics, st') /\
    map fst metrics = map fst reg /\ length metrics = length reg /\
    each_key_result w reg s e reg st metrics st'.
Proof.
  unfold calculate_all_metrics, get_all_metrics.
  destruct (calculate_all_loop_each w reg reg s e [] st) as (ms & st' & E & Hms).
  - exact Hreg.
  - intros k cfg H. exact (dict_get_NoDup reg k cfg Hreg H).
  - exists ms, st'. split; [exact E|].
    assert (Hk : map fst ms = map fst reg) by exact (each_key_result_keys _ _ _ _ _ _ _ _ Hms).
    split; [exact Hk|]. split; [|exact Hms].
    rewrite <- (length_map fst ms), <- (length_map fst reg), Hk; reflexivity.
Qed.

Theorem calculate_all_metrics_one_entry_per_key_witness :
  NoDup (map fst register_all_metrics) /\
  exists metrics st', calculate_all_metrics w_query_fails register_all_metrics 0%Z 1%Z (init_svc 0%Z) = (inr metrics, st') /\
    map fst metrics = map fst register_all_metrics /\ length metrics = length register_all_metrics /\
    each_key_result w_query_fails register_all_metrics 0%Z 1%Z register_all_metrics (init_svc 0%Z) metrics st'.
Proof.
  assert (H : NoDup (map fst register_all_metrics)).
  { unfold register_all_metrics; simpl fold_left.
    repeat apply register_metric_NoDup. constructor. }
  split; [exact H|].
  exact (calculate_all_metrics_one_entry_per_key w_query_fails register_all_metrics 0%Z 1%Z
           (init_svc 0%Z) H).
Defined.

(** ** C10: the statuses produced *)

(** C10 (confirmed).  [calculate_metric] returns (never raises) a response
    whose status is ["ok"] or ["error"], and so does every entry of
    [calculate_all_metrics]; ["partial"] and ["missing"] are never produced. *)
Theorem calculate_metric_status_ok_or_error (w : World) reg k s e (st : Svc) :
  match calculate_metric w reg k s e st with
  | (inr r, _) => status r = "ok" \/ status r = "error"
  | (inl _, _) => False
  end /\
  match calculate_all_metrics w reg s e st with
  | (inr metrics, _) => Forall status_ok_or_error metrics
  | (inl _, _) => False
  end.
Proof.
  split.
  - destruct (calculate_metric_shape w reg k s e st) as (r & st' & E & Hs & _).
    rewrite E; exact Hs.
  - unfold calculate_all_metrics.
    destruct (calculate_all_loop_total w reg (get_all_metrics reg) s e [] st (Forall_nil _))
      as (ms & st' & E & H).
    rewrite E; exact H.
Qed.

(** ** C2: zero rows *)

(** C2 (corrected).  When the summary query returns zero rows,
    [calculate_metric] returns status ["ok"] with [value = None] for every
    metric type (not [0]), [numerator = denominator = 0], the message
    ["No data available for <title>"], [data = []] and the measured time. *)
Theorem calculate_metric_zero_rows (w : World) reg key cfg s e (st st1 : Svc)
    (Hk : get_metric reg key = Some cfg)
    (Q : execute_query w (summary_query_func cfg s e) st = (inr [], st1)) :
  calculate_metric w reg key s e st =
    (inr (mkMetricResponse None 0 0 "ok" ("No data available for " ++ title cfg)
            (Some []) false (Some (now st1 - now st)%Z)), st1).
Proof.
  rewrite (calculate_metric_query_returns w reg key cfg s e st st1 [] Hk Q). reflexivity.
Qed.

Theorem calculate_metric_zero_rows_witness :
  get_metric register_all_metrics "dormant_account_rate" = Some dormant_account_rate_config /\
  execute_query w_empty (summary_query_func dormant_account_rate_config 0%Z 1%Z) (init_svc 0%Z)
    = (inr [], (snd (execute_query w_empty (summary_query_func dormant_account_rate_config 0%Z 1%Z) (init_svc 0%Z)))) /\
  calculate_metric w_empty register_all_metrics "dormant_account_rate" 0%Z 1%Z (init_svc 0%Z) =
    (inr (mkMetricResponse None 0 0 "ok" ("No data available for " ++ title dormant_account_rate_config)
            (Some []) false (Some (2 - 0)%Z)), (snd (execute_query w_empty (summary_query_func dormant_account_rate_config 0%Z 1%Z) (init_svc 0%Z)))).
Proof.
  split; [reflexivity|]. split; [reflexivity|].
  exact (calculate_metric_zero_rows w_empty register_all_metrics "dormant_account_rate"
           dormant_account_rate_config 0%Z 1%Z (init_svc 0%Z) ((snd (execute_query w_empty (summary_query_func dormant_account_rate_config 0%Z 1%Z) (init_svc 0%Z))))
           eq_refl eq_refl).
Defined.

(** C2: a percentage metric with zero rows gets [value = None], not [0]. *)
Lemma calculate_metric_zero_rows_percentage_value_none :
  match fst (calculate_metric w_empty register_all_metrics "dormant_account_rate" 0%Z 1%Z (init_svc 0%Z)) with
  | inr r => value r = None /\ value r <> Some 0%Q /\ status r = "ok"
  | inl _ => False
  end.
Proof. vm_compute. split; [reflexivity|]. split; [discriminate|reflexivity]. Qed.

(** ** C3: candidate-column extraction *)

(** C3 (code_bug).  Column lookup in [_extract_value] is exact-case: on the
    row Snowflake returns for the dormant-account query (aliases
    upper-cased), no percentage candidate matches and the value is [None],
    while the same row in lower case yields [0.25]; end to end the metric
    reports no data for a one-row result. *)
Theorem extract_value_misses_upper_case_column :
  _extract_value dormant_row_upper "percentage" = inr None /\
  _extract_value dormant_row_lower "percentage" = inr (Some (1 # 4)%Q) /\
  fst (calculate_metric w_ok_upper register_all_metrics "dormant_account_rate" 0%Z 1%Z (init_svc 0%Z))
  = inr (mkMetricResponse None 0 0 "ok" "No data available for Dormant Account Rate"
           None false (Some 2%Z)).
Proof. vm_compute. repeat split. Qed.

(** ** C7: a failing summary query stays local *)

(** C7 (confirmed).  For a registered key, when running the summary query
    raises [ex], [calculate_metric] returns (does not raise) status
    ["error"], the message ["Error calculating <key>: "] followed by the
    exception's text, and the time measured from its start. *)
Theorem calculate_metric_query_failure_local (w : World) reg key cfg s e (st st1 : Svc) ex
    (Hk : get_metric reg key = Some cfg)
    (Q : execute_query w (summary_query_func cfg s e) st = (inl ex, st1)) :
  calculate_metric w reg key s e st =
    (inr (mkMetricResponse None 0 0 "error" ("Error calculating " ++ key ++ ": " ++ str_exn ex)
            None false (Some (now st1 - now st)%Z)), st1).
Proof. exact (calculate_metric_query_raises w reg key cfg s e st st1 ex Hk Q). Qed.

Theorem calculate_metric_query_failure_local_witness :
  get_metric register_all_metrics "dormant_account_rate" = Some dormant_account_rate_config /\
  execute_query w_query_fails (summary_query_func dormant_account_rate_config 0%Z 1%Z) (init_svc 0%Z)
    = (inl (Exception_ "Query execution failed: SQL compilation error"),
       (snd (execute_query w_query_fails (summary_query_func dormant_account_rate_config 0%Z 1%Z) (init_svc 0%Z)))) /\
  calculate_metric w_query_fails register_all_metrics "dormant_account_rate" 0%Z 1%Z (init_svc 0%Z) =
    (inr (mkMetricResponse None 0 0 "error"
            ("Error calculating " ++ "dormant_account_rate" ++ ": "
               ++ str_exn (Exception_ "Query execution failed: SQL compilation error"))
            None false (Some (2 - 0)%Z)), (snd (execute_query w_query_fails (summary_query_func dormant_account_rate_config 0%Z 1%Z) (init_svc 0%Z)))).
Proof.
  split; [reflexivity|]. split; [reflexivity|].
  exact (calculate_metric_query_failure_local w_query_fails register_all_metrics
           "dormant_account_rate" dormant_account_rate_config 0%Z 1%Z (init_svc 0%Z)
           ((snd (execute_query w_query_fails (summary_query_func dormant_account_rate_config 0%Z 1%Z) (init_svc 0%Z))))
           (Exception_ "Query execution failed: SQL compilation error") eq_refl eq_refl).
Defined.

(** ** C4: connection failures inside [calculate_metric] *)

(** C4: with no key material, [calculate_metric] does not raise the
    [SnowflakeConnectionError]; it returns an error response. *)
Lemma calculate_metric_connection_error_not_propagated :
  fst (calculate_metric w_no_key register_all_metrics "dormant_account_rate" 0%Z 1%Z (init_svc 0%Z))
  = inr (mkMetricResponse None 0 0 "error"
           ("Error calculating dormant_account_rate: Failed to connect to Snowflake: "
              ++ "Private key file not found: snowflake_private_key.pem")
           None false (Some 0%Z)).
Proof. vm_compute. reflexivity. Qed.

(** C4 (corrected).  When session creation fails during [calculate_metric]
    for a registered key, the [SnowflakeConnectionError] ("Failed to connect
    to Snowflake: <cause>") is caught by [calculate_metric]'s catch-all
    handler and turned into that metric's ["error"] response carrying its
    text; nothing propagates to the caller. *)
Theorem calculate_metric_connection_error_caught (w : World) reg key cfg s e (st st1 : Svc) ex
    (Hk : get_metric reg key = Some cfg)
    (G : get_connection w st = (inl ex, st1)) :
  (exists m, connect_outcome w (attempts st) = Some m /\
             ex = SnowflakeConnectionError ("Failed to connect to Snowflake: " ++ m)) /\
  calculate_metric w reg key s e st =
    (inr (mkMetricResponse None 0 0 "error" ("Error calculating " ++ key ++ ": " ++ str_exn ex)
            None false (Some (now st1 - now st)%Z)), st1).
Proof.
  split.
  - apply (get_connection_fails w st st1 ex G).
  - apply (calculate_metric_query_raises w reg key cfg s e st st1 ex Hk).
    apply execute_query_connection_fails; exact G.
Qed.

Theorem calculate_metric_connection_error_caught_witness :
  get_metric register_all_metrics "dormant_account_rate" = Some dormant_account_rate_config /\
  get_connection w_no_key (init_svc 0%Z) =
    (inl (SnowflakeConnectionError
            "Failed to connect to Snowflake: Private key file not found: snowflake_private_key.pem"),
     mkSvc None None 300 1 [] 0 [] [(ERROR, "Snowflake connection error: " ++ "Private key file not found: snowflake_private_key.pem")]) /\
  (exists m, connect_outcome w_no_key (attempts (init_svc 0%Z)) = Some m /\
     SnowflakeConnectionError
       "Failed to connect to Snowflake: Private key file not found: snowflake_private_key.pem"
     = SnowflakeConnectionError ("Failed to connect to Snowflake: " ++ m)) /\
  calculate_metric w_no_key register_all_metrics "dormant_account_rate" 0%Z 1%Z (init_svc 0%Z) =
    (inr (mkMetricResponse None 0 0 "error"
            ("Error calculating " ++ "dormant_account_rate" ++ ": " ++
             str_exn (SnowflakeConnectionError
               "Failed to connect to Snowflake: Private key file not found: snowflake_private_key.pem"))
            None false (Some (0 - 0)%Z)), mkSvc None None 300 1 [] 0 [] [(ERROR, "Snowflake connection error: " ++ "Private key file not found: snowflake_private_key.pem")]).
Proof.
  assert (Hk : get_metric register_all_metrics "dormant_account_rate" = Some dormant_account_rate_config)
    by reflexivity.
  assert (G : get_connection w_no_key (init_svc 0%Z) =
    (inl (SnowflakeConnectionError
            "Failed to connect to Snowflake: Private key file not found: snowflake_private_key.pem"),
     mkSvc None None 300 1 [] 0 [] [(ERROR, "Snowflake connection error: " ++ "Private key file not found: snowflake_private_key.pem")])) by reflexivity.
  split; [exact Hk|]. split; [exact G|].
  exact (calculate_metric_connection_error_caught w_no_key register_all_metrics "dormant_account_rate"
           dormant_account_rate_config 0%Z 1%Z (init_svc 0%Z) (mkSvc None None 300 1 [] 0 [] [(ERROR, "Snowflake connection error: " ++ "Private key file not found: snowflake_private_key.pem")])
           _ Hk G).
Defined.

(** ** C6: what a failed query raises *)

(** C6: the exception raised for a failed query does not carry the query
    text (nor its first 100 characters); it is a bare [Exception]. *)
Lemma execute_query_error_lacks_query_text :
  fst (execute_query w_query_fails "SELECT 1 AS x" (init_svc 0%Z))
    = inl (Exception_ "Query execution failed: SQL compilation error") /\
  String.index 0 (substring 0 100 "SELECT 1 AS x") "Query execution failed: SQL compilation error"
    = None.
Proof. vm_compute. split; reflexivity. Qed.

(** C6 (corrected).  Every exception [execute_query] raises is either the
    [SnowflakeConnectionError] of a failed session creation, or, when the
    driver fails with message [m], a bare [Exception] whose text is
    ["Query execution failed: " ++ m]: the executor adds no query text; the
    first 100 characters of the query only appear in the log record written
    before the query runs. *)
Theorem execute_query_failures (w : World) (q : string) (st : Svc) :
  match execute_query w q st with
  | (inl ex, st2) =>
      (exists m, connect_outcome w (attempts st) = Some m /\
                 ex = SnowflakeConnectionError ("Failed to connect to Snowflake: " ++ m)) \/
      (exists h st1 m d, get_connection w st = (inr h, st1) /\ read_sql w q h = (inl m, d) /\
         ex = Exception_ ("Query execution failed: " ++ m) /\
         logs st2 = (ERROR, "Query execution failed after " ++ fmt_secs w d ++ "s: " ++ m)
                    :: (INFO, "Executing query: " ++ substring 0 100 q ++ "...") :: logs st1)
  | (inr _, _) => True
  end.
Proof.
  unfold execute_query at 1; unfold_M.
  destruct (get_connection w st) as [o st1] eqn:G; destruct o as [ex|h].
  - left. apply (get_connection_fails w st st1 ex G).
  - unfold pd_read_sql. destruct (read_sql w q h) as [[m|df] d] eqn:R; simpl; [|exact I].
    right. exists h, st1, m, d. repeat split; auto. simpl.
    do 3 f_equal. rewrite Z.add_simpl_l. reflexivity.
Qed.

(** ** The session state machine of [get_connection] *)

(** Every held handle came from an earlier connector call. *)
Definition wf (st : Svc) : Prop := forall h, conn st = Some h -> (h < attempts st)%nat.

Lemma get_connection_reuse (w : World) (st : Svc) h :
  is_stale st (now st) = false -> conn st = Some h -> get_connection w st = (inr h, st).
Proof. intros S C. unfold get_connection; unfold_M. rewrite S, C. reflexivity. Qed.

Lemma get_connection_refresh (w : World) (st st' : Svc) h' :
  is_stale st (now st) = true -> get_connection w st = (inr h', st') ->
  h' = attempts st /\ connect_outcome w (attempts st) = None /\
  conn st' = Some (attempts st) /\ last_connection_time st' = Some (now st) /\
  attempts st' = S (attempts st) /\ now st' = now st /\
  connection_timeout st' = connection_timeout st /\
  closed st' = match conn st with Some h => h :: closed st | None => closed st end /\
  logs st' = (INFO, "Created new Snowflake connection") :: logs st.
Proof.
  intros S. unfold get_connection, _create_connection, conn_close; unfold_M. rewrite S.
  destruct (conn st) as [h|] eqn:C; try destruct (close_raises w h); simpl;
    destruct (connect_outcome w (attempts st)) eqn:O; intros E; inversion E; subst;
    simpl; repeat split; auto.
Qed.

Lemma is_stale_gt (st : Svc) h t0 :
  conn st = Some h -> last_connection_time st = Some t0 ->
  is_stale st (now st) = Z.gtb (now st - t0) (connection_timeout st).
Proof. intros C L. unfold is_stale. rewrite C, L. reflexivity. Qed.

(** ** C8: staleness *)

(** C8: [close()] on the stale handle raises, and the only log record of
    the call is the creation of the new connection: the close error is
    swallowed without being logged. *)
Lemma get_connection_close_error_not_logged :
  let w_close_fails := mkWorld (fun _ => None) (fun _ => true) (fun _ _ => (inr [], 2%Z))
        (fun _ => "<pct>") (fun _ => "<count>") (fun _ => "<ratio>") (fun _ => "<int>")
        (fun _ => "<secs>") in
  close_raises w_close_fails 0%nat = true /\
  get_connection w_close_fails stale_svc =
    (inr 1%nat, mkSvc (Some 1%nat) (Some 400%Z) 300 2 [0%nat] 400 []
                  [(INFO, "Created new Snowflake connection")]).
Proof. split; reflexivity. Qed.

(** C8 (corrected).  A held handle created at [t0] is returned again, with
    the state unchanged, while [now - t0 <= timeout].  Once
    [now - t0 > timeout] it is not reused: whatever [close()] and the
    connector do, [close()] is called on it once, and an exception from
    [close()] is swallowed silently (the only log record is the connector's)
    and never propagates (the call's outcome is the connector's).  When
    creation fails the connector's [SnowflakeConnectionError] is raised; when
    it succeeds a new, distinct handle is created, recorded with the current
    time and returned, and calls within the timeout after that return it. *)
Theorem get_connection_staleness (w : World) (st : Svc) h t0
    (Hwf : wf st) (Hc : conn st = Some h) (Hl : last_connection_time st = Some t0) :
  ((now st - t0 <= connection_timeout st)%Z -> get_connection w st = (inr h, st)) /\
  ((now st - t0 > connection_timeout st)%Z ->
   exists o st', get_connection w st = (o, st') /\
     closed st' = h :: closed st /\
     match connect_outcome w (attempts st) with
     | Some m =>
         o = inl (SnowflakeConnectionError ("Failed to connect to Snowflake: " ++ m)) /\
         logs st' = (ERROR, "Snowflake connection error: " ++ m) :: logs st
     | None =>
         o = inr (attempts st) /\ attempts st <> h /\
         conn st' = Some (attempts st) /\ last_connection_time st' = Some (now st) /\
         logs st' = (INFO, "Created new Snowflake connection") :: logs st /\
         (forall d, (0 <= d <= connection_timeout st)%Z ->
            get_connection w (advance st' d) = (inr (attempts st), advance st' d))
     end).
Proof.
  split.
  - intros Hle. apply get_connection_reuse; [|exact Hc].
    rewrite (is_stale_gt st h t0 Hc Hl). rewrite Z.gtb_ltb; apply Z.ltb_ge; lia.
  - intros Hgt.
    assert (S : is_stale st (now st) = true).
    { rewrite (is_stale_gt st h t0 Hc Hl). rewrite Z.gtb_ltb; apply Z.ltb_lt; lia. }
    destruct (connect_outcome w (attempts st)) as [m|] eqn:O.
    + unfold get_connection, _create_connection, conn_close; unfold_M. rewrite S, Hc.
      destruct (close_raises w h); simpl; rewrite O;
        eexists _, _; (split; [reflexivity|]); simpl; repeat split.
    + destruct (get_connection w st) as [o st'] eqn:G.
      exists o, st'. split; [reflexivity|].
      destruct o as [ex|h'].
      * destruct (get_connection_fails w st st' ex G) as (_ & (m & Om & _) & _).
        rewrite O in Om; discriminate.
      * destruct (get_connection_refresh w st st' h' S G)
          as (-> & _ & C' & L' & A' & N' & T' & Cl' & Lg').
        split; [rewrite Cl', Hc; reflexivity|].
        split; [reflexivity|]. split.
        { specialize (Hwf h Hc). lia. }
        split; [exact C'|]. split; [exact L'|]. split; [exact Lg'|].
        intros d Hd. apply get_connection_reuse; [|exact C'].
        unfold is_stale, advance; simpl. rewrite C', L', N', T'.
        rewrite Z.gtb_ltb; apply Z.ltb_ge; lia.
Qed.

Theorem get_connection_staleness_witness :
  let st := stale_svc in
  wf st /\ conn st = Some 0%nat /\ last_connection_time st = Some 0%Z /\
  ((now st - 0 <= connection_timeout st)%Z -> get_connection w_ok_lower st = (inr 0%nat, st)) /\
  ((now st - 0 > connection_timeout st)%Z ->
   exists o st', get_connection w_ok_lower st = (o, st') /\
     closed st' = 0%nat :: closed st /\
     match connect_outcome w_ok_lower (attempts st) with
     | Some m =>
         o = inl (SnowflakeConnectionError ("Failed to connect to Snowflake: " ++ m)) /\
         logs st' = (ERROR, "Snowflake connection error: " ++ m) :: logs st
     | None =>
         o = inr (attempts st) /\ attempts st <> 0%nat /\
         conn st' = Some (attempts st) /\ last_connection_time st' = Some (now st) /\
         logs st' = (INFO, "Created new Snowflake connection") :: logs st /\
         (forall d, (0 <= d <= connection_timeout st)%Z ->
            get_connection w_ok_lower (advance st' d) = (inr (attempts st), advance st' d))
     end).
Proof.
  intros st.
  assert (Hwf : wf st) by (unfold wf; simpl; intros h E; inversion E; lia).
  split; [exact Hwf|]. split; [reflexivity|]. split; [reflexivity|].
  exact (get_connection_staleness w_ok_lower st 0%nat 0%Z Hwf eq_refl eq_refl).
Defined.

(** ** C9: a failed creation *)

(** C9: a failed refresh of a stale handle leaves the old (closed) handle
    in [self.conn]; the manager is not [Absent]. *)
Lemma get_connection_failed_refresh_keeps_handle :
  get_connection w_no_key (stale_svc) =
    (inl (SnowflakeConnectionError
            "Failed to connect to Snowflake: Private key file not found: snowflake_private_key.pem"),
     mkSvc (Some 0%nat) (Some 0%Z) 300 2 [0%nat] 400 [] [(ERROR, "Snowflake connection error: " ++ "Private key file not found: snowflake_private_key.pem")]) /\
  conn (mkSvc (Some 0%nat) (Some 0%Z) 300 2 [0%nat] 400 [] [(ERROR, "Snowflake connection error: " ++ "Private key file not found: snowflake_private_key.pem")]) <> None.
Proof. split; [reflexivity|discriminate]. Qed.

(** C9 (corrected).  When session creation fails inside [get_connection],
    the [SnowflakeConnectionError] propagates and [conn] and
    [last_connection_time] keep their previous values: from [Absent] the
    manager stays [Absent]; after a failed refresh it still holds the old,
    already closed handle.  That handle is never returned again: a later
    call (at a clock no earlier) finds it stale, closes it once more and
    either raises or returns a new handle. *)
Theorem get_connection_failure_state (w : World) (st st1 : Svc) ex
    (G : get_connection w st = (inl ex, st1)) :
  (exists m, connect_outcome w (attempts st) = Some m /\
             ex = SnowflakeConnectionError ("Failed to connect to Snowflake: " ++ m)) /\
  conn st1 = conn st /\ last_connection_time st1 = last_connection_time st /\
  closed st1 = match conn st with Some h => h :: closed st | None => closed st end /\
  (forall h d, wf st -> conn st = Some h -> (0 <= d)%Z ->
   forall o st2, get_connection w (advance st1 d) = (o, st2) ->
   o <> inr h /\ closed st2 = h :: closed st1).
Proof.
  destruct (get_connection_fails w st st1 ex G) as (S & Hm & C1 & L1 & A1 & N1 & T1 & Cl1).
  split; [exact Hm|]. split; [exact C1|]. split; [exact L1|]. split; [exact Cl1|].
  intros h d Hwf Hc Hd o st2 G2.
  assert (S2 : is_stale (advance st1 d) (now (advance st1 d)) = true).
  { unfold is_stale, advance in *; simpl. rewrite C1, L1, T1, N1.
    rewrite Hc in S |- *. destruct (last_connection_time st) as [t|]; [|reflexivity].
    rewrite Z.gtb_ltb, Z.ltb_lt in S. rewrite Z.gtb_ltb; apply Z.ltb_lt; lia. }
  destruct o as [ex2|h2].
  - destruct (get_connection_fails w _ _ _ G2) as (_ & _ & _ & _ & _ & _ & _ & Cl2).
    split; [discriminate|]. rewrite Cl2. simpl. rewrite C1, Hc. reflexivity.
  - destruct (get_connection_refresh w _ _ _ S2 G2) as (Eh & _ & _ & _ & _ & _ & _ & Cl2 & _).
    split.
    + intros Ho; injection Ho as ->. simpl in Eh. rewrite A1 in Eh.
      specialize (Hwf h Hc). lia.
    + rewrite Cl2. simpl. rewrite C1, Hc. reflexivity.
Qed.

Theorem get_connection_failure_state_witness :
  get_connection w_no_key (stale_svc) =
    (inl (SnowflakeConnectionError
            "Failed to connect to Snowflake: Private key file not found: snowflake_private_key.pem"),
     mkSvc (Some 0%nat) (Some 0%Z) 300 2 [0%nat] 400 [] [(ERROR, "Snowflake connection error: " ++ "Private key file not found: snowflake_private_key.pem")]) /\
  let st := stale_svc in
  let st1 := mkSvc (Some 0%nat) (Some 0%Z) 300 2 [0%nat] 400 [] [(ERROR, "Snowflake connection error: " ++ "Private key file not found: snowflake_private_key.pem")] in
  (exists m, connect_outcome w_no_key (attempts st) = Some m /\
     SnowflakeConnectionError
       "Failed to connect to Snowflake: Private key file not found: snowflake_private_key.pem"
     = SnowflakeConnectionError ("Failed to connect to Snowflake: " ++ m)) /\
  conn st1 = conn st /\ last_connection_time st1 = last_connection_time st /\
  closed st1 = match conn st with Some h => h :: closed st | None => closed st end /\
  (forall h d, wf st -> conn st = Some h -> (0 <= d)%Z ->
   forall o st2, get_connection w_no_key (advance st1 d) = (o, st2) ->
   o <> inr h /\ closed st2 = h :: closed st1).
Proof.
  assert (G : get_connection w_no_key (stale_svc) =
    (inl (SnowflakeConnectionError
            "Failed to connect to Snowflake: Private key file not found: snowflake_private_key.pem"),
     mkSvc (Some 0%nat) (Some 0%Z) 300 2 [0%nat] 400 [] [(ERROR, "Snowflake connection error: " ++ "Private key file not found: snowflake_private_key.pem")])) by reflexivity.
  split; [exact G|].
  exact (get_connection_failure_state w_no_key _ _ _ G).
Defined.

(** * Further properties of the code *)


(** ** metrics_registry.py *)

(** X1: registering a config makes [get_metric] return it under its key. *)
Theorem register_metric_get_same (reg : MetricsRegistry) (cfg : MetricConfig) :
  get_metric (register_metric reg cfg) (key cfg) = Some cfg.
Proof.
  unfold get_metric, register_metric. generalize (key cfg) as k.
  induction reg as [|[k' v'] reg IH]; intros k; simpl.
  - rewrite String.eqb_refl; reflexivity.
  - destruct (String.eqb k k') eqn:E; simpl.
    + rewrite String.eqb_refl; reflexivity.
    + rewrite E. apply IH.
Qed.

(** X2: registering a config leaves every other key's lookup unchanged. *)
Theorem register_metric_get_other (reg : MetricsRegistry) (cfg : MetricConfig) (k : string)
    (Hk : k <> key cfg) :
  get_metric (register_metric reg cfg) k = get_metric reg k.
Proof.
  unfold get_metric, register_metric. revert Hk. generalize (key cfg) as k0.
  induction reg as [|[k' v'] reg IH]; intros k0 Hk; simpl.
  - apply String.eqb_neq in Hk. rewrite Hk; reflexivity.
  - destruct (String.eqb k0 k') eqn:E; simpl.
    + apply String.eqb_eq in E; subst k'.
      apply String.eqb_neq in Hk. rewrite Hk. reflexivity.
    + destruct (String.eqb k k'); [reflexivity|]. apply IH; exact Hk.
Qed.

Theorem register_metric_get_other_witness :
  "platform_breakdown" <> key dormant_account_rate_config /\
  get_metric (register_metric register_all_metrics dormant_account_rate_config) "platform_breakdown"
  = get_metric register_all_metrics "platform_breakdown".
Proof.
  assert (H : "platform_breakdown" <> key dormant_account_rate_config) by (vm_compute; discriminate).
  split; [exact H|].
  exact (register_metric_get_other register_all_metrics dormant_account_rate_config _ H).
Defined.

(** X3: re-registering an existing key keeps the keys and their order (last
    write wins in place); a new key is appended at the end. *)
Theorem register_metric_keys (reg : MetricsRegistry) (cfg : MetricConfig) :
  map fst (register_metric reg cfg) =
    if existsb (String.eqb (key cfg)) (map fst reg) then map fst reg
    else (map fst reg ++ [key cfg])%list.
Proof.
  unfold register_metric. generalize (key cfg) as k.
  induction reg as [|[k' v'] reg IH]; intros k; simpl; [reflexivity|].
  destruct (String.eqb k k') eqn:E; simpl.
  - apply String.eqb_eq in E; subst; reflexivity.
  - rewrite IH. destruct (existsb (String.eqb k) (map fst reg)); reflexivity.
Qed.

Lemma insert_sorted_In (c x : string) (l : list string) :
  In x (insert_sorted c l) <-> In x (c :: l).
Proof.
  induction l as [|a l IH]; simpl; [tauto|].
  destruct (String.leb c a); simpl; [tauto|]. rewrite IH. simpl. tauto.
Qed.

Lemma sorted_strings_In (x : string) (l : list string) : In x (sorted_strings l) <-> In x l.
Proof.
  induction l as [|a l IH]; simpl; [tauto|]. rewrite insert_sorted_In. simpl. rewrite IH. tauto.
Qed.

Lemma leb_false_flip (a c : string) : String.leb c a = false -> String.leb a c = true.
Proof. intros H. destruct (String.leb_total c a) as [H'|H']; [congruence|exact H']. Qed.

Lemma insert_sorted_HdRel (a c : string) (l : list string) :
  HdRel str_le a l -> String.leb a c = true -> HdRel str_le a (insert_sorted c l).
Proof.
  intros Hh Hac. destruct l as [|b l]; simpl.
  - constructor; exact Hac.
  - destruct (String.leb c b); constructor; [exact Hac|]. inversion Hh; assumption.
Qed.

Lemma insert_sorted_Sorted (c : string) (l : list string) :
  Sorted str_le l -> Sorted str_le (insert_sorted c l).
Proof.
  induction l as [|a l IH]; simpl; intros Hs.
  - repeat constructor.
  - inversion Hs as [|? ? Hs' Hh]; subst.
    destruct (String.leb c a) eqn:E.
    + constructor; [exact Hs|constructor; exact E].
    + constructor; [apply IH; exact Hs'|].
      apply insert_sorted_HdRel; [exact Hh|apply leb_false_flip; exact E].
Qed.

(** X4: [get_categories] is sorted and lists exactly the categories held in
    [_categories]. *)
Theorem get_categories_sorted (r : MetricsRegistryObj) :
  Sorted str_le (get_categories r) /\
  (forall c, In c (get_categories r) <-> In c (_categories r)).
Proof.
  unfold get_categories. split.
  - unfold sorted_strings. induction (_categories r) as [|a l IH]; simpl;
      [constructor|apply insert_sorted_Sorted; exact IH].
  - intros c; apply sorted_strings_In.
Qed.

Lemma set_add_In (c x : string) (s : list string) : In x (set_add c s) <-> In x (c :: s).
Proof.
  unfold set_add. destruct (existsb (String.eqb c) s) eqn:E.
  - apply existsb_exists in E. destruct E as (y & Hy & Hc). apply String.eqb_eq in Hc; subst y.
    simpl. split; [tauto|]. intros [->|H]; auto.
  - rewrite in_app_iff; simpl. tauto.
Qed.

(** X5: categories are never removed: a category listed by [get_categories]
    is still listed after any further registration, even when the metric
    that introduced it is re-registered under another category. *)
Theorem get_categories_monotone (r : MetricsRegistryObj) (cfg : MetricConfig) (c : string)
    (Hc : In c (get_categories r)) :
  In c (get_categories (registry_register r cfg)).
Proof.
  apply get_categories_sorted in Hc. apply get_categories_sorted. simpl.
  apply set_add_In; right; exact Hc.
Qed.

Theorem get_categories_monotone_witness :
  let r := registry_register empty_registry dormant_account_rate_config in
  let cfg' := mkMetricConfig "dormant_account_rate" "Dormant Account Rate" "moved"
                "Finance" PERCENTAGE (sql_of "dormant_account_rate") in
  In "Customer Success" (get_categories r) /\
  In "Customer Success" (get_categories (registry_register r cfg')) /\
  get_metrics_by_category (registry_register r cfg') "Customer Success" = [].
Proof.
  intros r cfg'.
  assert (H : In "Customer Success" (get_categories r)) by (vm_compute; left; reflexivity).
  split; [exact H|]. split; [exact (get_categories_monotone r cfg' _ H)|]. vm_compute. reflexivity.
Defined.

(** X6: for a registry built by [register_metric] calls from the empty one,
    the category of every registered metric is listed by [get_categories]. *)
Theorem registered_category_listed (cfgs : list MetricConfig) (k : string) (cfg : MetricConfig)
    (Hk : get_metric (_metrics (fold_left registry_register cfgs empty_registry)) k = Some cfg) :
  In (category cfg) (get_categories (fold_left registry_register cfgs empty_registry)).
Proof.
  apply get_categories_sorted. revert Hk.
  assert (Inv : forall r, (forall k cfg, get_metric (_metrics r) k = Some cfg -> In (category cfg) (_categories r)) ->
            forall k cfg, get_metric (_metrics (fold_left registry_register cfgs r)) k = Some cfg ->
                          In (category cfg) (_categories (fold_left registry_register cfgs r))).
  { induction cfgs as [|c cs IH]; simpl; intros r Hr; [exact Hr|].
    apply IH. intros k0 cfg0 Hg. simpl in Hg |- *. apply set_add_In.
    destruct (String.eqb k0 (key c)) eqn:E.
    - apply String.eqb_eq in E; subst k0. rewrite register_metric_get_same in Hg.
      inversion Hg; subst; left; reflexivity.
    - apply String.eqb_neq in E. rewrite register_metric_get_other in Hg by exact E.
      right; exact (Hr k0 cfg0 Hg). }
  apply Inv. intros k0 cfg0 Hg; discriminate.
Qed.

Theorem registered_category_listed_witness :
  get_metric (_metrics (fold_left registry_register
                 [dormant_account_rate_config] empty_registry)) "dormant_account_rate"
    = Some dormant_account_rate_config /\
  In (category dormant_account_rate_config)
     (get_categories (fold_left registry_register [dormant_account_rate_config] empty_registry)).
Proof.
  assert (H : get_metric (_metrics (fold_left registry_register
                 [dormant_account_rate_config] empty_registry)) "dormant_account_rate"
              = Some dormant_account_rate_config) by reflexivity.
  split; [exact H|].
  exact (registered_category_listed [dormant_account_rate_config] _ _ H).
Defined.

(** ** metrics_service.py *)

(** X7: [get_metric_details] never raises.  It returns [[]] for an unknown
    key, a metric without a details builder, a builder that raises, or a
    failing query (connection or driver); otherwise the cleaned rows of the
    details query. *)
Theorem get_metric_details_never_raises (w : World) details reg k s e params (st : Svc) :
  match get_metric_details w details reg k s e params st with
  | (inr l, _) =>
      l = match get_metric reg k with
          | None => []
          | Some cfg =>
              match details cfg with
              | None => []
              | Some f =>
                  match f s e params with
                  | inl _ => []
                  | inr q => match fst (execute_query w q st) with
                             | inl _ => []
                             | inr df => clean_dataframe_for_json df
                             end
                  end
              end
          end
  | (inl _, _) => False
  end.
Proof.
  unfold get_metric_details; unfold_M.
  destruct (get_metric reg k) as [cfg|]; [|reflexivity].
  destruct (details cfg) as [f|]; [|reflexivity].
  destruct (f s e params) as [ex|q]; [reflexivity|].
  destruct (execute_query w q st) as [[ex|df] st1]; reflexivity.
Qed.

Lemma scan_columns_first {A} (conv : cell -> exn + A) (r : row) (cols : list string) a :
  scan_columns conv r cols = inr (Some a) ->
  exists pre col post c, cols = (pre ++ col :: post)%list /\ row_get r col = Some c /\
    c <> CNull /\ conv c = inr a /\
    Forall (fun x => row_get r x = None \/ row_get r x = Some CNull) pre.
Proof.
  induction cols as [|col rest IH]; simpl; [discriminate|].
  destruct (row_get r col) as [c|] eqn:G.
  - destruct c as [|q|t] eqn:Ec.
    + intros H. destruct (IH H) as (pre & col' & post & c' & -> & ? & ? & ? & ?).
      exists (col :: pre), col', post, c'. repeat split; auto.
    + destruct (conv (CNum q)) eqn:Cv; intros H; inversion H; subst.
      exists [], col, rest, (CNum q). repeat split; auto; discriminate.
    + destruct (conv (CStr t)) eqn:Cv; intros H; inversion H; subst.
      exists [], col, rest, (CStr t). repeat split; auto; discriminate.
  - intros H. destruct (IH H) as (pre & col' & post & c' & -> & ? & ? & ? & ?).
    exists (col :: pre), col', post, c'. repeat split; auto.
Qed.

(** X8: value extraction follows the per-type candidate order: the value
    comes from the first candidate column that is present and not null, and
    every earlier candidate is absent or null. *)
Theorem extract_value_first_non_null (r : row) (t : string) (v : Q)
    (H : _extract_value r t = inr (Some v)) :
  exists pre col post c, value_columns_get t = (pre ++ col :: post)%list /\
    row_get r col = Some c /\ c <> CNull /\ py_float c = inr v /\
    Forall (fun x => row_get r x = None \/ row_get r x = Some CNull) pre.
Proof. exact (scan_columns_first py_float r _ v H). Qed.

Theorem extract_value_first_non_null_witness :
  let r := [("rate", CNull); ("dormant_rate", CNum (1 # 4)%Q); ("ratio", CNum (1 # 2)%Q)] in
  _extract_value r "percentage" = inr (Some (1 # 2)%Q) /\
  exists pre col post c, value_columns_get "percentage" = (pre ++ col :: post)%list /\
    row_get r col = Some c /\ c <> CNull /\ py_float c = inr (1 # 2)%Q /\
    Forall (fun x => row_get r x = None \/ row_get r x = Some CNull) pre.
Proof.
  intros r. assert (H : _extract_value r "percentage" = inr (Some (1 # 2)%Q)) by reflexivity.
  split; [exact H|]. exact (extract_value_first_non_null r _ _ H).
Defined.

Lemma scan_columns_none {A} (conv : cell -> exn + A) (r : row) (cols : list string) :
  scan_columns conv r cols = inr None <->
  Forall (fun x => row_get r x = None \/ row_get r x = Some CNull) cols.
Proof.
  induction cols as [|col rest IH]; simpl; [split; auto|].
  destruct (row_get r col) as [[|q|t]|] eqn:G.
  - rewrite IH. split; [intros H; constructor; auto|intros H; inversion H; auto].
  - destruct (conv (CNum q)); split; try discriminate;
      intros H; inversion H as [|? ? [Hx|Hx] _]; congruence.
  - destruct (conv (CStr t)); split; try discriminate;
      intros H; inversion H as [|? ? [Hx|Hx] _]; congruence.
  - rewrite IH. split; [intros H; constructor; auto|intros H; inversion H; auto].
Qed.

(** X9: extraction yields no value (without error) exactly when every
    candidate column of the type is absent from the row or null. *)
Theorem extract_value_none_iff (r : row) (t : string) :
  _extract_value r t = inr None <->
  Forall (fun x => row_get r x = None \/ row_get r x = Some CNull) (value_columns_get t).
Proof. apply scan_columns_none. Qed.

Definition list_or_pareto (t : MetricType) : bool :=
  existsb (String.eqb (metric_type_value t)) ["list"; "pareto"].

(** X10: [data] is set only for a zero-row result ([[]], any type) or for a
    list/pareto metric with at least two rows; a single-row result, or a
    percentage/ratio/count/currency metric with rows, carries no data. *)
Theorem process_metric_results_data (w : World) df cfg s e (st st' : Svc) r
    (H : _process_metric_results w df cfg s e st = (inr r, st')) :
  data r <> None <-> (df = [] \/ (list_or_pareto (metric_type cfg) = true /\ (2 <= length df)%nat)).
Proof.
  unfold _process_metric_results in H; unfold_M.
  destruct df as [|r0 rest].
  - inversion H; subst; simpl. split; [auto|discriminate].
  - destruct (_extract_value r0 _); [discriminate|].
    destruct (_extract_numerator r0); [discriminate|].
    destruct (_extract_denominator r0); [discriminate|].
    injection H as Hr _; subst r. unfold list_or_pareto.
    destruct (metric_type cfg); destruct rest as [|r1 rest]; simpl; split; intros Hd;
      try discriminate;
      try (exfalso; apply Hd; reflexivity);
      try (right; split; [reflexivity|lia]);
      try (destruct Hd as [Hd|[Hd1 Hd2]]; [discriminate|try discriminate; lia]).
Qed.

Theorem process_metric_results_data_witness :
  let df := [[("platform", CStr "ios"); ("event_count", CNum (10 # 1)%Q)];
             [("platform", CStr "web"); ("event_count", CNum (7 # 1)%Q)]] in
  let cfg := mkMetricConfig "platform_breakdown" "Platform Breakdown"
               "Top platforms by event count" "Product & IT" LIST (sql_of "platform_breakdown") in
  _process_metric_results w_ok_lower df cfg 0%Z 1%Z (init_svc 0%Z)
    = (inr (mkMetricResponse (Some (10 # 1)%Q) 0 0 "ok" "Top platforms by event count"
              (Some df) false None), init_svc 0%Z) /\
  (data (mkMetricResponse (Some (10 # 1)%Q) 0 0 "ok" "Top platforms by event count"
              (Some df) false None) <> None <->
   (df = [] \/ (list_or_pareto (metric_type cfg) = true /\ (2 <= length df)%nat))).
Proof.
  intros df cfg.
  assert (H : _process_metric_results w_ok_lower df cfg 0%Z 1%Z (init_svc 0%Z)
    = (inr (mkMetricResponse (Some (10 # 1)%Q) 0 0 "ok" "Top platforms by event count"
              (Some df) false None), init_svc 0%Z)) by reflexivity.
  split; [exact H|]. exact (process_metric_results_data w_ok_lower df cfg _ _ _ _ _ H).
Defined.

(** X11: on a non-empty result whose first row extracts cleanly,
    [calculate_metric] returns status ["ok"] with the extracted value,
    numerator and denominator, the type's message, and the time measured
    from its start to the end of processing. *)
Theorem calculate_metric_success (w : World) reg key cfg s e (st st1 : Svc) r rest v n d
    (Hk : get_metric reg key = Some cfg)
    (Q : execute_query w (summary_query_func cfg s e) st = (inr (r :: rest), st1))
    (Xv : _extract_value r (metric_type_value (metric_type cfg)) = inr v)
    (Xn : _extract_numerator r = inr n) (Xd : _extract_denominator r = inr d) :
  exists resp, calculate_metric w reg key s e st = (inr resp, st1) /\
    value resp = v /\ numerator resp = n /\ denominator resp = d /\ status resp = "ok" /\
    message resp = _generate_message w cfg v n d /\ cached resp = false /\
    execution_time resp = Some (now st1 - now st)%Z.
Proof.
  rewrite (calculate_metric_query_returns w reg key cfg s e st st1 _ Hk Q).
  unfold _process_metric_results; unfold_M. rewrite Xv, Xn, Xd.
  eexists; split; [reflexivity|]. simpl. repeat split.
Qed.

Theorem calculate_metric_success_witness :
  get_metric register_all_metrics "dormant_account_rate" = Some dormant_account_rate_config /\
  execute_query w_ok_lower (summary_query_func dormant_account_rate_config 0%Z 1%Z) (init_svc 0%Z)
    = (inr [dormant_row_lower],
       snd (execute_query w_ok_lower (summary_query_func dormant_account_rate_config 0%Z 1%Z) (init_svc 0%Z))) /\
  exists resp, calculate_metric w_ok_lower register_all_metrics "dormant_account_rate" 0%Z 1%Z (init_svc 0%Z)
    = (inr resp, snd (execute_query w_ok_lower (summary_query_func dormant_account_rate_config 0%Z 1%Z) (init_svc 0%Z))) /\
    value resp = Some (1 # 4)%Q /\ numerator resp = 1%Z /\ denominator resp = 4%Z /\ status resp = "ok" /\
    message resp = _generate_message w_ok_lower dormant_account_rate_config (Some (1 # 4)%Q) 1 4 /\
    cached resp = false /\
    execution_time resp =
      Some (now (snd (execute_query w_ok_lower (summary_query_func dormant_account_rate_config 0%Z 1%Z)
                       (init_svc 0%Z))) - now (init_svc 0%Z))%Z.
Proof.
  assert (Hk : get_metric register_all_metrics "dormant_account_rate" = Some dormant_account_rate_config)
    by reflexivity.
  assert (Q : execute_query w_ok_lower (summary_query_func dormant_account_rate_config 0%Z 1%Z) (init_svc 0%Z)
    = (inr [dormant_row_lower],
       snd (execute_query w_ok_lower (summary_query_func dormant_account_rate_config 0%Z 1%Z) (init_svc 0%Z))))
    by reflexivity.
  split; [exact Hk|]. split; [exact Q|].
  exact (calculate_metric_success w_ok_lower register_all_metrics _ _ 0%Z 1%Z _ _ _ [] _ _ _ Hk Q
           eq_refl eq_refl eq_refl).
Defined.

(** ** snowflake_service.py *)



(** X13: after [get_connection] returns a handle (with a non-negative
    timeout), the service holds that handle and an immediate second call
    returns it again without touching the state. *)
Theorem get_connection_then_reuse (w : World) (st st' : Svc) h
    (Ht : (0 <= connection_timeout st)%Z) (G : get_connection w st = (inr h, st')) :
  conn st' = Some h /\ get_connection w st' = (inr h, st').
Proof.
  destruct (is_stale st (now st)) eqn:S.
  - destruct (get_connection_refresh w st st' h S G) as (-> & _ & C & L & _ & N & T & _).
    split; [exact C|]. apply get_connection_reuse; [|exact C].
    unfold is_stale. rewrite C, L, N, T. rewrite Z.gtb_ltb; apply Z.ltb_ge; lia.
  - destruct (conn st) as [h0|] eqn:C.
    + rewrite (get_connection_reuse w st h0 S C) in G. inversion G; subst.
      split; [exact C|]. apply get_connection_reuse; assumption.
    + unfold is_stale in S. rewrite C in S. discriminate.
Qed.

Theorem get_connection_then_reuse_witness :
  (0 <= connection_timeout (init_svc 0%Z))%Z /\
  get_connection w_ok_lower (init_svc 0%Z) = (inr 0%nat, snd (get_connection w_ok_lower (init_svc 0%Z))) /\
  conn (snd (get_connection w_ok_lower (init_svc 0%Z))) = Some 0%nat /\
  get_connection w_ok_lower (snd (get_connection w_ok_lower (init_svc 0%Z)))
    = (inr 0%nat, snd (get_connection w_ok_lower (init_svc 0%Z))).
Proof.
  assert (Ht : (0 <= connection_timeout (init_svc 0%Z))%Z) by (simpl; lia).
  assert (G : get_connection w_ok_lower (init_svc 0%Z)
              = (inr 0%nat, snd (get_connection w_ok_lower (init_svc 0%Z)))) by reflexivity.
  split; [exact Ht|]. split; [exact G|].
  exact (get_connection_then_reuse w_ok_lower _ _ _ Ht G).
Defined.

(** X14: a successful query returns the driver's rows unchanged; the clock
    advances by the query's duration and two log records are written: the
    query's first 100 characters before, and the duration and row count after. *)
Theorem execute_query_success (w : World) (q : string) (st st1 : Svc) h df d
    (G : get_connection w st = (inr h, st1)) (R : read_sql w q h = (inr df, d)) :
  exists st2, execute_query w q st = (inr df, st2) /\ now st2 = (now st1 + d)%Z /\
    conn st2 = conn st1 /\
    logs st2 = (INFO, "Query executed successfully in " ++ fmt_secs w d ++ "s, returned "
                      ++ str_int w (Z.of_nat (length df)) ++ " rows")
               :: (INFO, "Executing query: " ++ substring 0 100 q ++ "...") :: logs st1.
Proof.
  unfold execute_query, pd_read_sql; unfold_M. rewrite G. simpl. rewrite R. simpl.
  eexists; split; [reflexivity|]. simpl. repeat split.
  do 3 f_equal. rewrite Z.add_simpl_l. reflexivity.
Qed.

Theorem execute_query_success_witness :
  get_connection w_ok_lower (init_svc 0%Z) = (inr 0%nat, snd (get_connection w_ok_lower (init_svc 0%Z))) /\
  read_sql w_ok_lower "SELECT 1" 0%nat = (inr [dormant_row_lower], 2%Z) /\
  exists st2, execute_query w_ok_lower "SELECT 1" (init_svc 0%Z) = (inr [dormant_row_lower], st2) /\
    now st2 = (now (snd (get_connection w_ok_lower (init_svc 0%Z))) + 2)%Z /\
    conn st2 = conn (snd (get_connection w_ok_lower (init_svc 0%Z))) /\
    logs st2 = (INFO, "Query executed successfully in " ++ fmt_secs w_ok_lower 2 ++ "s, returned "
                      ++ str_int w_ok_lower (Z.of_nat (length [dormant_row_lower])) ++ " rows")
               :: (INFO, "Executing query: " ++ substring 0 100 "SELECT 1" ++ "...")
               :: logs (snd (get_connection w_ok_lower (init_svc 0%Z))).
Proof.
  assert (G : get_connection w_ok_lower (init_svc 0%Z)
              = (inr 0%nat, snd (get_connection w_ok_lower (init_svc 0%Z)))) by reflexivity.
  assert (R : read_sql w_ok_lower "SELECT 1" 0%nat = (inr [dormant_row_lower], 2%Z)) by reflexivity.
  split; [exact G|]. split; [exact R|].
  exact (execute_query_success w_ok_lower _ _ _ _ _ _ G R).
Defined.

(** ** calculate_all_metrics with the connector down *)

Lemma dict_get_In {V} (d : dict V) k v : In (k, v) d -> exists v', dict_get d k = Some v'.
Proof.
  induction d as [|[k' v'] d IH]; simpl; intros H; [destruct H|].
  destruct (String.eqb k k') eqn:E; [eauto|].
  destruct H as [H|H]; [|auto].
  inversion H; subst. rewrite String.eqb_refl in E. discriminate.
Qed.

Lemma get_connection_down (w : World) (st : Svc) m :
  conn st = None -> connect_outcome w (attempts st) = Some m ->
  exists st1, get_connection w st =
                (inl (SnowflakeConnectionError ("Failed to connect to Snowflake: " ++ m)), st1) /\
              conn st1 = None /\ attempts st1 = S (attempts st).
Proof.
  intros C O. unfold get_connection, _create_connection; unfold_M.
  unfold is_stale; rewrite C; simpl. try rewrite C; rewrite O. eexists; split; [reflexivity|].
  simpl. split; [exact C|reflexivity].
Qed.

(** The entry [calculate_all_metrics] writes for [k] when the connector fails
    with message [m]. *)
Definition connector_down_entry (m : string) (p : string * MetricResponse) : Prop :=
  status (snd p) = "error" /\
  message (snd p) = "Error calculating " ++ fst p ++ ": Failed to connect to Snowflake: " ++ m.

Lemma calculate_all_loop_down (w : World) reg items s e acc (st : Svc) m :
  conn st = None -> (forall n, connect_outcome w n = Some m) ->
  (forall k cfg, In (k, cfg) items -> exists c, get_metric reg k = Some c) ->
  Forall (connector_down_entry m) acc ->
  exists ms st', calculate_all_loop w reg items s e acc st = (inr ms, st') /\
    Forall (connector_down_entry m) ms /\
    attempts st' = (attempts st + length items)%nat /\ conn st' = None.
Proof.
  revert acc st; induction items as [|[k cfg] rest IH]; intros acc st C O Hin Hacc; simpl; unfold_M.
  - eexists _, _; split; [reflexivity|]. repeat split; [exact Hacc|lia|exact C].
  - destruct (Hin k cfg (or_introl eq_refl)) as [c Hk].
    destruct (get_connection_down w st m C (O _)) as (st1 & G & C1 & A1).
    rewrite (calculate_metric_query_raises w reg k c s e st st1 _ Hk
               (execute_query_connection_fails w _ st st1 _ G)).
    destruct (IH (dict_set acc k (mkMetricResponse None 0 0 "error"
                 ("Error calculating " ++ k ++ ": " ++
                  str_exn (SnowflakeConnectionError ("Failed to connect to Snowflake: " ++ m)))
                 None false (Some (now st1 - now st)%Z))) st1 C1 O)
      as (ms & st' & E & Hms & A & C').
    + intros k' cfg' H'. exact (Hin k' cfg' (or_intror H')).
    + apply dict_set_Forall; [exact Hacc|]. split; reflexivity.
    + exists ms, st'. split; [exact E|]. repeat split; [exact Hms| |exact C'].
      rewrite A, A1. simpl. lia.
Qed.

(** X15: when no connection is held and every connection attempt fails with
    the same message, [calculate_all_metrics] still returns, with exactly one
    entry per registered key (in the registry's order), each an ["error"]
    entry naming its metric and the connector's message; it makes one fresh
    connection attempt per metric and holds no connection afterwards. *)
Theorem calculate_all_metrics_connector_down (w : World) (reg : MetricsRegistry) s e (st : Svc) m
    (Hreg : NoDup (map fst reg))
    (C : conn st = None) (O : forall n, connect_outcome w n = Some m) :
  exists ms st', calculate_all_metrics w reg s e st = (inr ms, st') /\
    map fst ms = map fst reg /\
    Forall (connector_down_entry m) ms /\
    attempts st' = (attempts st + length reg)%nat /\ conn st' = None.
Proof.
  unfold calculate_all_metrics, get_all_metrics.
  destruct (calculate_all_loop_down w reg reg s e [] st m C O) as (ms & st' & E & Hms & A & C');
    [intros k cfg H; exact (dict_get_In reg k cfg H)|constructor|].
  destruct (calculate_all_loop_keys w reg reg s e [] st Hreg) as (ms' & st'' & E' & Hk).
  rewrite E in E'. injection E' as <- <-.
  exists ms, st'. split; [exact E|]. split; [exact Hk|]. split; [exact Hms|]. split; assumption.
Qed.

Theorem calculate_all_metrics_connector_down_witness :
  NoDup (map fst register_all_metrics) /\
  conn (init_svc 0%Z) = None /\
  (forall n, connect_outcome w_no_key n = Some "Private key file not found: snowflake_private_key.pem") /\
  exists ms st', calculate_all_metrics w_no_key register_all_metrics 0%Z 1%Z (init_svc 0%Z) = (inr ms, st') /\
    map fst ms = map fst register_all_metrics /\
    Forall (connector_down_entry "Private key file not found: snowflake_private_key.pem") ms /\
    attempts st' = (attempts (init_svc 0%Z) + length register_all_metrics)%nat /\ conn st' = None.
Proof.
  assert (H : NoDup (map fst register_all_metrics)).
  { unfold register_all_metrics; simpl fold_left.
    repeat apply register_metric_NoDup. constructor. }
  assert (C : conn (init_svc 0%Z) = None) by reflexivity.
  assert (O : forall n, connect_outcome w_no_key n
                        = Some "Private key file not found: snowflake_private_key.pem")
    by (intros n; reflexivity).
  split; [exact H|]. split; [exact C|]. split; [exact O|].
  exact (calculate_all_metrics_connector_down w_no_key register_all_metrics 0%Z 1%Z
           (init_svc 0%Z) _ H C O).
Defined.
